(** * Vials dashboard: the detection-and-arbitration pipeline

    A shallow embedding of [detection_model.py] (the detector
    configurations [models], [predict_and_draw], [concatenate_images],
    [insert_data]) and of the processing loop of [user_page.py]
    ([user_detection_page]), with the properties of the specification
    stated and settled against them.

    Conventions.
    - Python [int] is [Z]; a Python [float] that is finite is the rational
      it denotes, so tensor entries and thresholds are [Q] and [int(f)] is
      truncation toward zero.
    - A Python [dict] is a [gmap]; [d.get(k, x)] is [dict_get].
    - A Python [str] is a [string], one character per code point.
    - An exception is the [Raise] outcome of [result]; the clock read by
      [datetime.now()], the YOLO handles and the SQL sink are the only
      parts taken from outside and are explicit arguments. *)

From Stdlib Require Import ZArith QArith Lqa Lia String List.
From stdpp Require Import gmap strings list sorting.

Local Open Scope Z_scope.
Local Open Scope string_scope.

(** ** Exceptions *)

Inductive exn :=
  | UnboundLocalError (var : string)
  | KeyError (key : string)
  | PersistenceError.

Inductive result (A : Type) :=
  | Ok (a : A)
  | Raise (e : exn).
Arguments Ok {A} a.
Arguments Raise {A} e.

#[global] Instance result_ret : MRet result := fun A a => Ok a.
#[global] Instance result_bind : MBind result := fun A B k m =>
  match m with
  | Ok a => k a
  | Raise e => Raise e
  end.

(** [d.get(key, dflt)] *)
Definition dict_get {V} (d : gmap string V) (key : string) (dflt : V) : V :=
  default dflt (d !! key).

(** ** Images

    A decoded three-channel image: [height] rows of [width] pixels, a
    pixel being its three channel values in storage order. *)

Module Img.

Definition pixel : Type := Z * Z * Z.

Record Image := mkImage {
  width : nat;
  height : nat;
  rows : list (list pixel)
}.

(** The shape invariant of every PIL image and numpy array. *)
Definition wf (im : Image) : Prop :=
  length (rows im) = height im /\
  Forall (fun r => length r = width im) (rows im).

Definition getpixel (im : Image) (x y : nat) : option pixel :=
  match rows im !! y with
  | Some r => r !! x
  | None => None
  end.

(** [cv2.cvtColor(a, cv2.COLOR_RGB2BGR)] and [cv2.COLOR_BGR2RGB]: both
    exchange the first and the third channel of every pixel. *)
Definition swap_channels (p : pixel) : pixel :=
  let '(c0, c1, c2) := p in (c2, c1, c0).

Definition cvtColor (im : Image) : Image :=
  {| width := width im; height := height im;
     rows := map (map swap_channels) (rows im) |}.

(** [Image.new('RGB', (w, h))]: the default fill colour is 0, black. *)
Definition black : pixel := (0, 0, 0).

Definition new (w h : nat) : Image :=
  {| width := w; height := h; rows := replicate h (replicate w black) |}.

(** [canvas.paste(im, (x0, y0))]: every canvas pixel that lies in the box
    of [im] placed at [(x0, y0)] takes the pixel of [im]; the box is
    clipped to the canvas and the canvas keeps its size. *)
Definition paste (canvas im : Image) (x0 y0 : nat) : Image :=
  {| width := width canvas; height := height canvas;
     rows :=
       imap (fun y r =>
         imap (fun x p =>
           if (x0 <=? x)%nat && (y0 <=? y)%nat
           then default p (getpixel im (x - x0) (y - y0))
           else p) r) (rows canvas) |}.

(** [concatenate_images(image1, image2)] *)
Definition concatenate_images (image1 image2 : Image) : Image :=
  let total_width := (width image1 + width image2)%nat in
  let max_height := Nat.max (height image1) (height image2) in
  let concatenated_image := new total_width max_height in
  let concatenated_image := paste concatenated_image image1 0 0 in
  let concatenated_image := paste concatenated_image image2 (width image1) 0 in
  concatenated_image.

End Img.

(** ** Detection: [models] and [predict_and_draw] *)

Module Det.

(** [int(f)] on a finite float: truncation toward zero. *)
Definition py_int (q : Q) : Z := Z.quot (Qnum q) (Zpos (Qden q)).

(** One row of [results[0].boxes.data]: the five leading entries
    ([data[:, :-1]], a "coord") and the trailing class id ([data[:, -1]]). *)
Record Coord := mkCoord { x1 : Q; y1 : Q; x2 : Q; y2 : Q; conf : Q }.
Record BoxRow := mkBoxRow { coord : Coord; label : Q }.

(** The detector handle: [model.predict(source, conf, iou, ...)] returns a
    list of results, each carrying its [boxes.data] rows. *)
Definition Detector : Type := Img.Image -> Q -> Q -> list (list BoxRow).

Record ModelInfo := mkModelInfo {
  model : Detector;
  conf_threshold : Q;
  iou_threshold : Q;
  classes : gmap Z string
}.

(** The module-level dict [models]; the two weight files are the handles
    [yolo_vials] and [yolo_pfs]. *)
Definition models (yolo_vials yolo_pfs : Detector) : gmap string ModelInfo :=
  <["Vials" := {| model := yolo_vials;
                  conf_threshold := 0.65;
                  iou_threshold := 0.45;
                  classes := {[ 0 := "VIAL" ]} |}]>
  (<["PFS" := {| model := yolo_pfs;
                 conf_threshold := 0.70;
                 iou_threshold := 0.45;
                 classes := {[ 0 := "PFS" ]} |}]> ∅).

(** *** [sorted(iterable, key=...)]

    Python's sort is stable and compares keys with [<] only. *)
Section sorted.
Context {A K : Type} (lt : K -> K -> bool) (key : A -> K).

Fixpoint insert_sorted (x : A) (l : list A) : list A :=
  match l with
  | [] => [x]
  | y :: l' =>
      if lt (key y) (key x) then y :: insert_sorted x l' else x :: y :: l'
  end.

Definition sorted (l : list A) : list A := foldr insert_sorted [] l.
End sorted.

(** [<] on the key tuples [(x[1][0], x[1][1])]: the first component that
    differs decides. *)
Definition tuple_lt (a b : Q * Q) : bool :=
  match (a.1 ?= b.1)%Q with
  | Lt => true
  | Gt => false
  | Eq => match (a.2 ?= b.2)%Q with Lt => true | _ => false end
  end.

Definition sort_key (x : Q * Coord) : Q * Q := (x1 x.2, y1 x.2).

(** The order in which the loop visits the detections. *)
Definition draw_order (data : list BoxRow) : list (Q * Coord) :=
  let labels := label <$> data in
  let coords := coord <$> data in
  sorted tuple_lt sort_key (zip labels coords).

(** *** Drawing

    [ImageDraw.Draw(img_draw)] mutates [img_draw]; the mutations are kept
    as the sequence of strokes applied to the converted image. *)
Inductive DrawOp :=
  | Rectangle (xy0 xy1 : Z * Z) (outline : string)
  | Ellipse (box : Z * Z * Z * Z) (fill : string).

Record Drawn := mkDrawn { canvas : Img.Image; strokes : list DrawOp }.

(** The locals that live across iterations of the [for] loop.
    [bbox_color] and [dot_color] are unbound until first assigned. *)
Record Locals := mkLocals {
  draw : list DrawOp;
  class_counts : gmap string Z;
  bbox_color : option string;
  dot_color : option string
}.

Definition read_local (var : string) (v : option string) : result string :=
  match v with
  | Some c => Ok c
  | None => Raise (UnboundLocalError var)
  end.

Definition loop_body (model_info : ModelInfo) (st : Locals)
    (item : Q * Coord) : result Locals :=
  let '(lbl, crd) := item in
  let ix1 := py_int (x1 crd) in
  let iy1 := py_int (y1 crd) in
  let ix2 := py_int (x2 crd) in
  let iy2 := py_int (y2 crd) in
  let class_name := default "Unknown" (classes model_info !! py_int lbl) in
  let '(bbox, dot) :=
    if decide (class_name = "PFS") then (Some "black", Some "white")
    else if decide (class_name = "VIAL") then (Some "white", Some "black")
    else (bbox_color st, dot_color st) in
  outline ← read_local "bbox_color" bbox;
  let draw1 := (draw st ++ [Rectangle (ix1, iy1) (ix2, iy2) outline])%list in
  fill ← read_local "dot_color" dot;
  let draw2 := (draw1 ++ [Ellipse (ix1, iy1, ix1 + 5, iy1 + 5) fill])%list in
  let counts :=
    match class_counts st !! class_name with
    | Some n => <[class_name := n + 1]> (class_counts st)
    | None => class_counts st
    end in
  Ok {| draw := draw2; class_counts := counts;
        bbox_color := bbox; dot_color := dot |}.

Fixpoint for_each (model_info : ModelInfo) (items : list (Q * Coord))
    (st : Locals) : result Locals :=
  match items with
  | [] => Ok st
  | item :: items' =>
      st' ← loop_body model_info st item;
      for_each model_info items' st'
  end.

(** [predict_and_draw(image, model_info)]; [now] is what
    [datetime.now().strftime(...)] yields at the [return]. *)
Definition predict_and_draw (image : Img.Image) (model_info : ModelInfo)
    (now : string) : result (Drawn * gmap string Z * string) :=
  let image := Img.cvtColor image in
  let results :=
    model model_info image (conf_threshold model_info)
      (iou_threshold model_info) in
  match results with
  | [] => Ok (mkDrawn image [], ∅, now)
  | data :: _ =>
      if decide (length data = 0%nat) then Ok (mkDrawn image [], ∅, now)
      else
        let img_draw := Img.cvtColor image in
        let class_counts := <["PFS" := 0]> (<["VIAL" := 0]> ∅) in
        st ← for_each model_info (draw_order data)
               {| draw := []; class_counts := class_counts;
                  bbox_color := None; dot_color := None |};
        Ok (mkDrawn img_draw (draw st), Det.class_counts st, now)
  end.

End Det.

(** ** The ORM path: [DetectionData], [insert_data] *)

Module Db.

(** A row of table [detection_data2]; the serial primary key [id] is
    assigned by the database and is not part of what the code passes. *)
Record DetectionData := mkDetectionData {
  image_name : string;
  model_name : string;
  pfs_count : Z;
  vial_count : Z;
  timestamp : string
}.

(** An ORM session: the objects added but not yet committed, and the
    committed rows of the table. *)
Record Session := mkSession {
  pending : list DetectionData;
  detection_data2 : list DetectionData
}.

Definition add (db : Session) (d : DetectionData) : Session :=
  {| pending := pending db ++ [d]; detection_data2 := detection_data2 db |}.

Definition commit (db : Session) : Session :=
  {| pending := []; detection_data2 := detection_data2 db ++ pending db |}.

(** [insert_data(db, image_name, model_name, pfs_count, vial_count, timestamp)] *)
Definition insert_data (db : Session) (image_name model_name : string)
    (pfs_count vial_count : Z) (timestamp : string) : Session :=
  let truncated_image_name := String.substring 0 30 image_name in
  let db_data :=
    {| image_name := truncated_image_name;
       model_name := model_name;
       pfs_count := pfs_count;
       vial_count := vial_count;
       timestamp := timestamp |} in
  commit (add db db_data).

End Db.

(** ** The detection page: [user_detection_page] *)

Module Page.
Import Det.

(** One dict appended to [results_list], later one row of the frame. *)
Record ResultRow := mkResultRow {
  Image_Name : string;
  Model_Used : string;
  PFS_Count : Z;
  VIAL_Count : Z;
  Timestamp : string;
  Username : string
}.

(** What the page reads and writes: the module global [models], Streamlit's
    [session_state], the number of clock readings made so far, the SQL
    table [detection] and the log of [to_sql] calls issued. *)
Record World := mkWorld {
  g_models : gmap string ModelInfo;
  session_state : gmap string string;
  clock_reads : nat;
  detection : list ResultRow;
  sql_log : list (list ResultRow)
}.

Definition M (A : Type) : Type := World -> result A * World.

#[global] Instance M_ret : MRet M := fun A a w => (Ok a, w).
#[global] Instance M_bind : MBind M := fun A B k m w =>
  match m w with
  | (Ok a, w') => k a w'
  | (Raise e, w') => (Raise e, w')
  end.

Definition raise {A} (e : exn) : M A := fun w => (Raise e, w).

(** [models[key]] *)
Definition models_getitem (key : string) : M ModelInfo := fun w =>
  match g_models w !! key with
  | Some mi => (Ok mi, w)
  | None => (Raise (KeyError key), w)
  end.

Section page.
(** [clock n] is the formatted time at the [n]-th reading of the clock;
    [accepts] tells which rows the SQL sink takes. *)
Variable clock : nat -> string.
Variable accepts : ResultRow -> bool.

(** A call of [predict_and_draw] from the page: the clock is read once,
    at the [return]. *)
Definition call_predict_and_draw (image : Img.Image) (model_info : ModelInfo)
    : M (Drawn * gmap string Z * string) := fun w =>
  match predict_and_draw image model_info (clock (clock_reads w)) with
  | Ok r =>
      (Ok r, {| g_models := g_models w; session_state := session_state w;
                clock_reads := S (clock_reads w);
                detection := detection w; sql_log := sql_log w |})
  | Raise e => (Raise e, w)
  end.

(** [results_df.to_sql('detection', con=db, if_exists='append',
    index=False)]: pandas issues the insert of the whole frame inside
    one transaction, so the rows are appended together or not at all. *)
Definition to_sql (results_df : list ResultRow) : M unit := fun w =>
  let log := (sql_log w ++ [results_df])%list in
  if forallb accepts results_df
  then (Ok tt, {| g_models := g_models w; session_state := session_state w;
                  clock_reads := clock_reads w;
                  detection := (detection w ++ results_df)%list;
                  sql_log := log |})
  else (Raise PersistenceError,
        {| g_models := g_models w; session_state := session_state w;
           clock_reads := clock_reads w;
           detection := detection w; sql_log := log |}).

(** The body of [for image, image_name in zip(images, image_names)].
    Saving the processed and the combined image and showing the latter
    write to the file store and the browser only and are left out. *)
Definition process_image (username : string) (image : Img.Image)
    (image_name : string) : M (Drawn * ResultRow) :=
  model_vials ← models_getitem "Vials";
  '(processed_image_vials, counts_vials, timestamp_vials) ←
    call_predict_and_draw image model_vials;
  model_pfs ← models_getitem "PFS";
  '(processed_image_pfs, counts_pfs, timestamp_pfs) ←
    call_predict_and_draw image model_pfs;
  let total_vials := dict_get counts_vials "VIAL" 0 in
  let total_pfs := dict_get counts_pfs "PFS" 0 in
  let '(final_image, model_used, final_counts) :=
    if decide (total_vials >= total_pfs)
    then (processed_image_vials, "Vials",
          <["PFS" := 0]> (<["VIAL" := total_vials]> (∅ : gmap string Z)))
    else (processed_image_pfs, "PFS",
          <["PFS" := total_pfs]> (<["VIAL" := 0]> (∅ : gmap string Z))) in
  mret (final_image,
        {| Image_Name := image_name;
           Model_Used := model_used;
           PFS_Count := dict_get final_counts "PFS" 0;
           VIAL_Count := dict_get final_counts "VIAL" 0;
           Timestamp := timestamp_vials;
           Username := username |}).

Fixpoint for_images (username : string) (batch : list (Img.Image * string))
    (results_list : list ResultRow) : M (list ResultRow) :=
  match batch with
  | [] => mret results_list
  | (image, image_name) :: batch' =>
      '(_, row) ← process_image username image image_name;
      for_images username batch' (results_list ++ [row])%list
  end.

(** [user_detection_page()], for the images submitted in this run. *)
Definition user_detection_page (batch : list (Img.Image * string)) : M unit :=
  fun w =>
  match session_state w !! "username" with
  | None => (Ok tt, w)
  | Some username =>
      (results_list ← for_images username batch [];
       match results_list with
       | [] => mret tt
       | _ :: _ => to_sql results_list
       end) w
  end.
End page.

End Page.

(** ** Sample inputs

    Concrete images, detectors and batches on which the properties below
    are exercised. *)

Module Sample.
Import Img Det.

Definition left_image : Image := mkImage 1 2 [[(1, 1, 1)]; [(2, 2, 2)]].
Definition right_image : Image := mkImage 2 1 [[(3, 3, 3); (4, 4, 4)]].

(** A box row with integral corners, confidence 0.9 and class id [c]. *)
Definition box (xa ya xb yb c : Z) : BoxRow :=
  mkBoxRow (mkCoord (inject_Z xa) (inject_Z ya) (inject_Z xb) (inject_Z yb)
              0.9) (inject_Z c).

(** Two detections that start at the same point and differ in extent. *)
Definition small_box : BoxRow := box 5 5 10 10 0.
Definition large_box : BoxRow := box 5 5 20 20 0.

(** Detections with pairwise different origins. *)
Definition spread_boxes : list BoxRow :=
  [box 5 5 10 10 0; box 1 7 3 9 0; box 1 2 3 4 0].

(** A one-pixel pure red image, in RGB order. *)
Definition red_pixel_image : Image := mkImage 1 1 [[(255, 0, 0)]].

(** A handle that finds nothing, and one that answers with fixed rows. *)
Definition finds_nothing : Detector := fun _ _ _ => [[]].
Definition finds (data : list BoxRow) : Detector := fun _ _ _ => [data].

(** The "Vials" configuration around a given handle. *)
Definition vials_config (yolo : Detector) : ModelInfo :=
  {| model := yolo; conf_threshold := 0.65; iou_threshold := 0.45;
     classes := {[ 0 := "VIAL" ]} |}.

(** A single detection whose class id, 1, is not in the label table. *)
Definition unmapped_box : BoxRow := box 5 5 10 10 1.

(** A vial, then a detection of unmapped class to its right. *)
Definition vial_then_unmapped : list BoxRow :=
  [box 1 2 3 4 0; box 5 5 10 10 1].

(** A clock that advances by one second per reading. *)
Definition clock (n : nat) : string :=
  nth n ["2024-05-01 10:00:00"; "2024-05-01 10:00:01"; "2024-05-01 10:00:02";
         "2024-05-01 10:00:03"; "2024-05-01 10:00:04"; "2024-05-01 10:00:05"]
    "2024-05-01 10:00:06".

(** Handles under which the syringe detector wins: one vial, two syringes. *)
Definition one_vial : Detector := finds [box 1 2 3 4 0].
Definition two_syringes : Detector := finds [box 1 1 2 9 0; box 4 1 5 9 0].

(** The world at the start of a run by user "alice". *)
Definition world (yolo_vials yolo_pfs : Detector) : Page.World :=
  {| Page.g_models := models yolo_vials yolo_pfs;
     Page.session_state := {[ "username" := "alice" ]};
     Page.clock_reads := 0;
     Page.detection := [];
     Page.sql_log := [] |}.

(** A batch of three uploads, and a sink that refuses the second one. *)
Definition three_uploads : list (Image * string) :=
  [(red_pixel_image, "a.jpg"); (left_image, "b.jpg"); (right_image, "c.jpg")].

Definition refuses_b (row : Page.ResultRow) : bool :=
  negb (String.eqb (Page.Image_Name row) "b.jpg").

End Sample.

(** ** Vocabulary of the properties *)

Module Spec.
Import Det.

(** "Left-to-right, top-to-bottom by origin": [x1] first, [y1] second. *)
Definition origin_le (a b : Q * Coord) : Prop :=
  (x1 a.2 < x1 b.2)%Q \/ ((x1 a.2 == x1 b.2)%Q /\ (y1 a.2 <= y1 b.2)%Q).

Definition same_origin (a b : Q * Coord) : Prop :=
  (x1 a.2 == x1 b.2)%Q /\ (y1 a.2 == y1 b.2)%Q.

#[global] Instance same_origin_dec a b : Decision (same_origin a b).
Proof.
  unfold same_origin.
  destruct (Qeq_dec (x1 a.2) (x1 b.2)), (Qeq_dec (y1 a.2) (y1 b.2));
    [left|right..]; tauto.
Defined.

(** No two rows of the detector's answer start at the same point. *)
Definition distinct_origins (data : list BoxRow) : Prop :=
  forall r r', r ∈ data -> r' ∈ data ->
    (x1 (coord r) == x1 (coord r'))%Q -> (y1 (coord r) == y1 (coord r'))%Q ->
    r = r'.

(** The rows the detector hands back for an image: [results[0].boxes.data],
    or nothing when [results] is empty. *)
Definition returned_boxes (image : Img.Image) (model_info : ModelInfo)
    : list BoxRow :=
  match model model_info (Img.cvtColor image) (conf_threshold model_info)
          (iou_threshold model_info) with
  | [] => []
  | data :: _ => data
  end.

(** The label a detection gets from the config's table. *)
Definition class_name_of (model_info : ModelInfo) (lbl : Q) : string :=
  default "Unknown" (classes model_info !! py_int lbl).

(** How many of the rows are given the label [name]. *)
Definition count_label (model_info : ModelInfo) (name : string)
    (data : list BoxRow) : Z :=
  Z.of_nat (length (filter (fun r => class_name_of model_info (label r) = name)
                      data)).

(** The corners of the rectangles among the strokes, in stroke order. *)
Definition rectangle_corners (ops : list DrawOp) : list ((Z * Z) * (Z * Z)) :=
  omap (fun op => match op with
                  | Rectangle a b _ => Some (a, b)
                  | Ellipse _ _ => None
                  end) ops.

Definition int_box (item : Q * Coord) : (Z * Z) * (Z * Z) :=
  ((py_int (x1 item.2), py_int (y1 item.2)),
   (py_int (x2 item.2), py_int (y2 item.2))).

(** The locals on entry to the loop of [predict_and_draw]. *)
Definition init_locals : Locals :=
  {| draw := []; class_counts := <["PFS" := 0]> (<["VIAL" := 0]> ∅);
     bbox_color := None; dot_color := None |}.

(** The dict [{"PFS": a, "VIAL": b}]. *)
Definition two_counts (a b : Z) : gmap string Z :=
  <["PFS" := a]> (<["VIAL" := b]> ∅).

(** How many of the visited items carry the label [name]. *)
Definition hits (model_info : ModelInfo) (name : string)
    (items : list (Q * Coord)) : Z :=
  Z.of_nat (length (filter (fun it => class_name_of model_info it.1 = name)
                      items)).

(** An operation of the page that leaves [models], the table and the log of
    [to_sql] calls as they were. *)
Definition frame {A} (m : Page.M A) : Prop :=
  forall w, Page.g_models (m w).2 = Page.g_models w /\
            Page.detection (m w).2 = Page.detection w /\
            Page.sql_log (m w).2 = Page.sql_log w.

End Spec.

(** * Properties *)

(** ** Images and [concatenate_images] *)

Section image_facts.
Import Img.
Local Open Scope nat_scope.

Lemma getpixel_wf (im : Image) (x y : nat) :
  wf im -> x < width im -> y < height im -> is_Some (getpixel im x y).
Proof.
  intros [Hh Hw] Hx Hy. unfold getpixel.
  destruct (rows im !! y) as [r|] eqn:Hr.
  - apply lookup_lt_is_Some.
    rewrite Forall_forall in Hw.
    rewrite (Hw r); [done|]. by eapply list_elem_of_lookup_2.
  - apply lookup_ge_None in Hr. lia.
Qed.

Lemma getpixel_outside (im : Image) (x y : nat) :
  wf im -> width im <= x \/ height im <= y -> getpixel im x y = None.
Proof.
  intros [Hh Hw] Hxy. unfold getpixel.
  destruct (rows im !! y) as [r|] eqn:Hr; [|done].
  destruct Hxy as [Hx|Hy].
  - apply lookup_ge_None. rewrite Forall_forall in Hw.
    rewrite (Hw r); [done|]. by eapply list_elem_of_lookup_2.
  - apply lookup_lt_Some in Hr. lia.
Qed.

Lemma wf_new (w h : nat) : wf (new w h).
Proof.
  split; simpl.
  - apply length_replicate.
  - apply Forall_forall. intros r Hr.
    apply elem_of_replicate in Hr as [-> _]. apply length_replicate.
Qed.

Lemma getpixel_new (w h x y : nat) :
  x < w -> y < h -> getpixel (new w h) x y = Some black.
Proof.
  intros Hx Hy. unfold getpixel, new; simpl.
  rewrite lookup_replicate_2 by done.
  by rewrite lookup_replicate_2.
Qed.

Lemma getpixel_paste (canvas im : Image) (x0 y0 x y : nat) :
  getpixel (paste canvas im x0 y0) x y =
  (fun p => if (x0 <=? x) && (y0 <=? y)
            then default p (getpixel im (x - x0) (y - y0)) else p)
    <$> getpixel canvas x y.
Proof.
  unfold getpixel, paste; simpl.
  rewrite list_lookup_imap.
  destruct (rows canvas !! y) as [r|]; simpl; [|done].
  by rewrite list_lookup_imap.
Qed.

Lemma wf_paste (canvas im : Image) (x0 y0 : nat) :
  wf canvas -> wf (paste canvas im x0 y0).
Proof.
  intros [Hh Hw]. split; simpl.
  - by rewrite length_imap.
  - apply Forall_forall. intros r Hr.
    apply elem_of_lookup_imap_1 in Hr as (i & r' & -> & Hi).
    rewrite length_imap. rewrite Forall_forall in Hw.
    apply Hw. by eapply list_elem_of_lookup_2.
Qed.

Lemma wf_concatenate_images (a b : Image) : wf (concatenate_images a b).
Proof. unfold concatenate_images. do 2 apply wf_paste. apply wf_new. Qed.

(** C5. The composite is [width a + width b] wide and
    [max (height a) (height b)] high; its region
    [[0, width a) x [0, height a)] holds the pixels of [a] and its region
    [[width a, width a + width b) x [0, height b)] holds the pixels of
    [b], each at its own coordinates, so neither input is scaled. *)
Theorem concatenate_images_spec (a b : Image) :
  wf a -> wf b ->
  width (concatenate_images a b) = width a + width b /\
  height (concatenate_images a b) = Nat.max (height a) (height b) /\
  wf (concatenate_images a b) /\
  (forall x y, x < width a -> y < height a ->
     exists p, getpixel a x y = Some p /\
               getpixel (concatenate_images a b) x y = Some p) /\
  (forall x y, x < width b -> y < height b ->
     exists p, getpixel b x y = Some p /\
               getpixel (concatenate_images a b) (width a + x) y = Some p).
Proof.
  intros Ha Hb. split; [done|]. split; [done|].
  split; [apply wf_concatenate_images|]. split.
  - intros x y Hx Hy.
    destruct (getpixel_wf a x y Ha Hx Hy) as [p Hp]. exists p. split; [done|].
    unfold concatenate_images. rewrite !getpixel_paste.
    rewrite getpixel_new by lia. simpl.
    rewrite !Nat.sub_0_r, Hp. simpl.
    by destruct (width a <=? x) eqn:E; [apply Nat.leb_le in E; lia|].
  - intros x y Hx Hy.
    destruct (getpixel_wf b x y Hb Hx Hy) as [p Hp]. exists p. split; [done|].
    unfold concatenate_images. rewrite !getpixel_paste.
    rewrite getpixel_new by lia. simpl.
    replace (width a + x - width a) with x by lia.
    rewrite !Nat.sub_0_r, Hp.
    by destruct (width a <=? width a + x) eqn:E;
      [|apply Nat.leb_gt in E; lia].
Qed.

(** The rest of the canvas keeps the background colour. *)
Lemma concatenate_images_padding (a b : Image) (x y : nat) :
  wf a -> wf b ->
  x < width a + width b -> y < Nat.max (height a) (height b) ->
  (x < width a -> height a <= y) ->
  (width a <= x -> height b <= y) ->
  getpixel (concatenate_images a b) x y = Some black.
Proof.
  intros Ha Hb Hx Hy HA HB.
  unfold concatenate_images. rewrite !getpixel_paste.
  rewrite getpixel_new by lia. simpl. rewrite !Nat.sub_0_r.
  destruct (width a <=? x) eqn:E.
  - apply Nat.leb_le in E.
    rewrite (getpixel_outside b) by (auto with lia).
    rewrite (getpixel_outside a) by (auto with lia). done.
  - apply Nat.leb_gt in E.
    rewrite (getpixel_outside a) by (auto with lia). done.
Qed.

Lemma left_image_wf : wf Sample.left_image.
Proof. split; [reflexivity|]. repeat constructor. Defined.

Lemma right_image_wf : wf Sample.right_image.
Proof. split; [reflexivity|]. repeat constructor. Defined.

Lemma concatenate_images_spec_witness :
  width (concatenate_images Sample.left_image Sample.right_image) = 3 /\
  height (concatenate_images Sample.left_image Sample.right_image) = 2 /\
  getpixel (concatenate_images Sample.left_image Sample.right_image) 2 0
    = Some (4, 4, 4)%Z.
Proof.
  destruct (concatenate_images_spec Sample.left_image Sample.right_image
              left_image_wf right_image_wf) as (Hw & Hh & _ & _ & Hb).
  split; [exact Hw|]. split; [exact Hh|].
  destruct (Hb 1 0 ltac:(simpl; lia) ltac:(simpl; lia)) as (p & Hp & Hc).
  simpl in Hp. injection Hp as <-. exact Hc.
Defined.
End image_facts.

(** ** The draw order of [predict_and_draw] *)

Section draw_order_facts.
Import Det Spec.

Lemma tuple_lt_spec (a b : Q * Q) :
  tuple_lt a b = true <->
  (a.1 < b.1)%Q \/ ((a.1 == b.1)%Q /\ (a.2 < b.2)%Q).
Proof.
  unfold tuple_lt.
  destruct (a.1 ?= b.1)%Q eqn:E1.
  - apply Qeq_alt in E1.
    destruct (a.2 ?= b.2)%Q eqn:E2.
    + apply Qeq_alt in E2. split; [done|]. intros [?|[? ?]]; lra.
    + apply Qlt_alt in E2. split; [auto|done].
    + apply Qgt_alt in E2. split; [done|]. intros [?|[? ?]]; lra.
  - apply Qlt_alt in E1. split; [auto|done].
  - apply Qgt_alt in E1. split; [done|]. intros [?|[? ?]]; lra.
Qed.

Lemma tuple_lt_false (a b : Q * Coord) :
  tuple_lt (sort_key b) (sort_key a) = false <-> origin_le a b.
Proof.
  rewrite <-not_true_iff_false, tuple_lt_spec. unfold origin_le; simpl.
  split.
  - intros H.
    destruct (Qlt_le_dec (x1 a.2) (x1 b.2)) as [?|Hx]; [by left|].
    right. split.
    + destruct (Qlt_le_dec (x1 b.2) (x1 a.2)); [tauto|lra].
    + destruct (Qlt_le_dec (y1 b.2) (y1 a.2)); [|done].
      exfalso. apply H. destruct (Qlt_le_dec (x1 b.2) (x1 a.2)); [tauto|].
      right. split; [lra|done].
  - intros [?|[? ?]] [?|[? ?]]; lra.
Qed.

Lemma origin_le_trans : Transitive origin_le.
Proof.
  intros a b c [?|[? ?]] [?|[? ?]]; unfold origin_le;
    [left; lra..|right; split; lra].
Qed.

Lemma origin_le_total : Total origin_le.
Proof.
  intros a b. unfold origin_le.
  destruct (Qlt_le_dec (x1 a.2) (x1 b.2)); [tauto|].
  destruct (Qlt_le_dec (x1 b.2) (x1 a.2)); [tauto|].
  destruct (Qlt_le_dec (y1 b.2) (y1 a.2)); [right|left]; right; split; lra.
Qed.

#[local] Existing Instance origin_le_trans.
#[local] Existing Instance origin_le_total.

Lemma origin_le_antisym (a b : Q * Coord) :
  origin_le a b -> origin_le b a -> same_origin a b.
Proof. intros [?|[? ?]] [?|[? ?]]; split; lra. Qed.

Abbreviation isort := (sorted tuple_lt sort_key).
Abbreviation iinsert := (insert_sorted tuple_lt sort_key).

Lemma insert_sorted_Permutation (x : Q * Coord) l : iinsert x l ≡ₚ x :: l.
Proof.
  induction l as [|y l IH]; simpl; [done|].
  destruct (tuple_lt _ _); [|done].
  rewrite IH. apply Permutation_swap.
Qed.

Lemma sorted_Permutation (l : list (Q * Coord)) : isort l ≡ₚ l.
Proof.
  induction l as [|x l IH]; simpl; [done|].
  by rewrite insert_sorted_Permutation, IH.
Qed.

Lemma insert_sorted_Sorted (x : Q * Coord) l :
  Sorted origin_le l -> Sorted origin_le (iinsert x l).
Proof.
  induction 1 as [|y l Hl IH Hy]; simpl; [by repeat constructor|].
  destruct (tuple_lt (sort_key y) (sort_key x)) eqn:E.
  - constructor; [done|].
    assert (origin_le y x) as Hyx.
    { destruct (total origin_le y x) as [|Hxy]; [done|].
      apply tuple_lt_false in Hxy. congruence. }
    destruct Hy as [|z l' Hz]; simpl; [by constructor|].
    destruct (tuple_lt (sort_key z) (sort_key x)); by constructor.
  - apply tuple_lt_false in E. constructor; [by constructor|by constructor].
Qed.

Lemma sorted_Sorted (l : list (Q * Coord)) : Sorted origin_le (isort l).
Proof.
  induction l as [|x l IH]; simpl; [constructor|].
  by apply insert_sorted_Sorted.
Qed.

(** Stability: detections that share an origin keep their input order. *)
Lemma insert_sorted_stable (c x : Q * Coord) l :
  filter (same_origin c) (iinsert x l) = filter (same_origin c) (x :: l).
Proof.
  induction l as [|y l IH]; simpl; [done|].
  destruct (tuple_lt (sort_key y) (sort_key x)) eqn:E; [|done].
  rewrite filter_cons, IH, !filter_cons.
  apply tuple_lt_spec in E; simpl in E.
  destruct (decide (same_origin c y)) as [[? ?]|];
    destruct (decide (same_origin c x)) as [[? ?]|]; try done.
  exfalso. destruct E as [?|[? ?]]; lra.
Qed.

Lemma sorted_stable (c : Q * Coord) l :
  filter (same_origin c) (isort l) = filter (same_origin c) l.
Proof.
  induction l as [|x l IH]; simpl; [done|].
  by rewrite insert_sorted_stable, !filter_cons, IH.
Qed.

Lemma zip_columns (data : list BoxRow) :
  zip (label <$> data) (coord <$> data)
  = (fun r => (label r, coord r)) <$> data.
Proof. induction data as [|r data IH]; simpl; [done|]. by f_equal. Qed.

End draw_order_facts.

Section draw_order_claim.
Import Det Spec.
#[local] Existing Instance origin_le_trans.
#[local] Existing Instance origin_le_total.

Lemma draw_order_Permutation (data : list BoxRow) :
  draw_order data ≡ₚ zip (label <$> data) (coord <$> data).
Proof. apply sorted_Permutation. Qed.

Lemma draw_order_StronglySorted (data : list BoxRow) :
  StronglySorted origin_le (draw_order data).
Proof. apply Sorted_StronglySorted; [apply _|]. apply sorted_Sorted. Qed.

Lemma draw_order_unique (data data' : list BoxRow) :
  distinct_origins data -> data' ≡ₚ data ->
  draw_order data' = draw_order data.
Proof.
  intros Hd Hp.
  apply (StronglySorted_unique_strong origin_le);
    [|apply draw_order_StronglySorted..|].
  - intros a b Ha Hb Hab Hba.
    rewrite draw_order_Permutation, zip_columns in Ha, Hb.
    apply list_elem_of_fmap in Ha as (r & -> & Hr).
    apply list_elem_of_fmap in Hb as (r' & -> & Hr').
    rewrite Hp in Hr.
    destruct (origin_le_antisym _ _ Hab Hba) as [Hx Hy]; simpl in *.
    by rewrite (Hd r r' Hr Hr' Hx Hy).
  - rewrite !draw_order_Permutation, !zip_columns. by rewrite Hp.
Qed.

(** C7, as the code has it. The loop visits the detections in an order
    that is a rearrangement of the detector's answer, ascending by origin
    with [x1] the primary and [y1] the secondary key; detections with one
    and the same origin keep the order in which the detector returned
    them; and when no two detections share an origin the order depends on
    the set of detections only. *)
Theorem draw_order_spec (data : list BoxRow) :
  draw_order data ≡ₚ zip (label <$> data) (coord <$> data) /\
  StronglySorted origin_le (draw_order data) /\
  (forall c, filter (same_origin c) (draw_order data)
             = filter (same_origin c) (zip (label <$> data) (coord <$> data)))
  /\
  (forall data', distinct_origins data -> data' ≡ₚ data ->
                 draw_order data' = draw_order data).
Proof.
  split; [apply draw_order_Permutation|].
  split; [apply draw_order_StronglySorted|].
  split; [intros c; apply sorted_stable|].
  intros data'. apply draw_order_unique.
Qed.

Lemma spread_boxes_distinct : distinct_origins Sample.spread_boxes.
Proof.
  intros r r' Hr Hr' Hx Hy. unfold Sample.spread_boxes in *.
  repeat (apply elem_of_cons in Hr as [->|Hr]);
    try (by apply elem_of_nil in Hr);
    repeat (apply elem_of_cons in Hr' as [->|Hr']);
    try (by apply elem_of_nil in Hr');
    try reflexivity; exfalso; vm_compute in Hx, Hy; lia.
Defined.

Lemma draw_order_spec_witness :
  draw_order (reverse Sample.spread_boxes) = draw_order Sample.spread_boxes.
Proof.
  apply (draw_order_spec Sample.spread_boxes).
  - exact spread_boxes_distinct.
  - apply reverse_Permutation.
Defined.

(** C7, as stated, fails: two detections with the same origin are drawn
    in the order in which the detector returned them, so the same set of
    detections has two draw orders. *)
Lemma draw_order_not_set_determined :
  [Sample.small_box; Sample.large_box] ≡ₚ [Sample.large_box; Sample.small_box]
  /\ draw_order [Sample.small_box; Sample.large_box]
     <> draw_order [Sample.large_box; Sample.small_box].
Proof.
  split; [apply Permutation_swap|].
  vm_compute. intros H. discriminate H.
Qed.
End draw_order_claim.

(** ** [predict_and_draw] *)

Section predict_and_draw_facts.
Import Img Det Spec.
Local Open Scope list_scope.

Lemma swap_channels_involutive (p : pixel) :
  swap_channels (swap_channels p) = p.
Proof. by destruct p as [[c0 c1] c2]. Qed.

Lemma cvtColor_involutive (im : Image) : cvtColor (cvtColor im) = im.
Proof.
  destruct im as [w h rs]. unfold cvtColor; simpl. f_equal.
  rewrite map_map. rewrite <-(map_id rs) at 2. apply map_ext. intros r.
  rewrite map_map. rewrite <-(map_id r) at 2. apply map_ext.
  apply swap_channels_involutive.
Qed.

Lemma getpixel_cvtColor (im : Image) (x y : nat) :
  getpixel (cvtColor im) x y = swap_channels <$> getpixel im x y.
Proof.
  unfold getpixel, cvtColor; simpl.
  change (map (map swap_channels) (rows im))
    with (fmap (M := list) (fmap (M := list) swap_channels) (rows im)).
  rewrite list_lookup_fmap.
  destruct (rows im !! y) as [r|]; simpl; [|done].
  apply list_lookup_fmap.
Qed.

(** The two paths of [predict_and_draw]. *)
Lemma predict_and_draw_no_boxes image model_info now :
  returned_boxes image model_info = [] ->
  predict_and_draw image model_info now
  = Ok (mkDrawn (cvtColor image) [], ∅, now).
Proof.
  unfold returned_boxes, predict_and_draw. intros H.
  destruct (model model_info _ _ _) as [|data ?]; [done|].
  subst data. done.
Qed.

Lemma predict_and_draw_boxes image model_info now :
  returned_boxes image model_info <> [] ->
  predict_and_draw image model_info now
  = (st ← for_each model_info
            (draw_order (returned_boxes image model_info)) init_locals;
     Ok (mkDrawn image (draw st), class_counts st, now)).
Proof.
  unfold returned_boxes, predict_and_draw. intros H.
  destruct (model model_info _ _ _) as [|data ?]; [done|].
  destruct (decide (length data = 0%nat)) as [E|_].
  { by apply nil_length_inv in E. }
  by rewrite cvtColor_involutive.
Qed.

(** One iteration: two strokes are added at the truncated origin, and the
    count of the detection's label goes up when it is a key of the map. *)
Lemma loop_body_Ok model_info st item st' :
  loop_body model_info st item = Ok st' ->
  (exists outline fill,
     draw st' = draw st ++ [Rectangle (int_box item).1 (int_box item).2 outline;
                            Ellipse ((int_box item).1.1, (int_box item).1.2,
                                     (int_box item).1.1 + 5,
                                     (int_box item).1.2 + 5) fill])
  /\ class_counts st' =
     match class_counts st !! class_name_of model_info item.1 with
     | Some n => <[class_name_of model_info item.1 := n + 1]> (class_counts st)
     | None => class_counts st
     end.
Proof.
  destruct item as [lbl crd]. unfold loop_body, class_name_of; simpl.
  set (name := default "Unknown" (classes model_info !! py_int lbl)).
  destruct (if decide (name = "PFS") then _ else _) as [bbox dot].
  destruct bbox as [outline|]; simpl; [|done].
  destruct dot as [fill|]; simpl; [|done].
  intros [= <-]; simpl. split; [|done].
  exists outline, fill. by rewrite <-app_assoc.
Qed.

Lemma for_each_rectangles model_info items st st' :
  for_each model_info items st = Ok st' ->
  rectangle_corners (draw st')
  = rectangle_corners (draw st) ++ (int_box <$> items).
Proof.
  revert st. induction items as [|item items IH]; intros st; simpl.
  - intros [= <-]. by rewrite app_nil_r.
  - destruct (loop_body model_info st item) as [st1|] eqn:E; simpl; [|done].
    intros H. rewrite (IH _ H).
    apply loop_body_Ok in E as [(outline & fill & ->) _].
    unfold rectangle_corners. rewrite omap_app; simpl.
    by rewrite <-app_assoc.
Qed.

(** The rectangles are stroked in the draw order, at truncated corners. *)
Lemma strokes_follow_draw_order image model_info now img counts ts :
  predict_and_draw image model_info now = Ok (img, counts, ts) ->
  rectangle_corners (strokes img)
  = int_box <$> draw_order (returned_boxes image model_info).
Proof.
  destruct (decide (returned_boxes image model_info = [])) as [E|E].
  - rewrite predict_and_draw_no_boxes by done. intros [= <- _ _].
    by rewrite E.
  - rewrite predict_and_draw_boxes by done.
    destruct (for_each _ _ _) as [st|] eqn:H; simpl; [|done].
    intros [= <- _ _]; simpl. by rewrite (for_each_rectangles _ _ _ _ H).
Qed.
End predict_and_draw_facts.

(** ** The count map of [predict_and_draw] *)

Section counts_facts.
Import Img Det Spec.
Local Open Scope list_scope.

Lemma two_counts_lookup_PFS a b : two_counts a b !! "PFS" = Some a.
Proof. unfold two_counts. by simplify_map_eq. Qed.

Lemma two_counts_lookup_VIAL a b : two_counts a b !! "VIAL" = Some b.
Proof. unfold two_counts. by simplify_map_eq. Qed.

Lemma two_counts_lookup_other a b name :
  name <> "PFS" -> name <> "VIAL" -> two_counts a b !! name = None.
Proof. intros. unfold two_counts. by simplify_map_eq. Qed.

Lemma two_counts_dom a b : dom (two_counts a b) = ({["PFS"; "VIAL"]} : gset string).
Proof. unfold two_counts. rewrite !dom_insert_L. set_solver. Qed.

Lemma loop_body_counts model_info st item st' a b :
  class_counts st = two_counts a b ->
  loop_body model_info st item = Ok st' ->
  class_counts st' = two_counts (a + hits model_info "PFS" [item])
                                (b + hits model_info "VIAL" [item]).
Proof.
  intros Hc H. apply loop_body_Ok in H as [_ ->]. rewrite Hc.
  unfold hits. rewrite !filter_cons, !filter_nil.
  destruct (decide (class_name_of model_info item.1 = "PFS")) as [->|HP].
  - rewrite two_counts_lookup_PFS.
    rewrite decide_False by done. simpl.
    unfold two_counts. rewrite insert_insert_eq. by rewrite Z.add_0_r.
  - destruct (decide (class_name_of model_info item.1 = "VIAL")) as [->|HV].
    + rewrite two_counts_lookup_VIAL. simpl.
      unfold two_counts. rewrite Z.add_0_r.
      rewrite insert_insert_ne by done. by rewrite insert_insert_eq.
    + rewrite two_counts_lookup_other by done. simpl.
      by rewrite !Z.add_0_r.
Qed.

Lemma for_each_counts model_info items st st' a b :
  class_counts st = two_counts a b ->
  for_each model_info items st = Ok st' ->
  class_counts st' = two_counts (a + hits model_info "PFS" items)
                                (b + hits model_info "VIAL" items).
Proof.
  revert st a b. induction items as [|item items IH]; intros st a b Hc; simpl.
  - intros [= <-]. unfold hits. rewrite !filter_nil; simpl.
    by rewrite !Z.add_0_r.
  - destruct (loop_body model_info st item) as [st1|] eqn:E; simpl; [|done].
    intros H.
    rewrite (IH _ _ _ (loop_body_counts _ _ _ _ _ _ Hc E) H).
    unfold hits. rewrite !(filter_cons _ item), !filter_nil.
    f_equal; repeat case_decide; simpl length; lia.
Qed.

Lemma hits_draw_order model_info name data :
  hits model_info name (draw_order data) = count_label model_info name data.
Proof.
  unfold hits, count_label. f_equal.
  rewrite draw_order_Permutation, zip_columns.
  induction data as [|r data IH]; [done|].
  rewrite fmap_cons, !filter_cons; simpl.
  case_decide; simpl; by rewrite IH.
Qed.

(** The count map of a normal return, exactly. *)
Lemma predict_and_draw_counts_exact image model_info now img counts ts :
  predict_and_draw image model_info now = Ok (img, counts, ts) ->
  returned_boxes image model_info <> [] ->
  counts = two_counts
             (count_label model_info "PFS" (returned_boxes image model_info))
             (count_label model_info "VIAL" (returned_boxes image model_info)).
Proof.
  intros H Hne. rewrite predict_and_draw_boxes in H by done.
  destruct (for_each _ _ _) as [st|] eqn:E; simpl in H; [|done].
  injection H as _ <- _.
  rewrite (for_each_counts _ _ init_locals _ 0 0 eq_refl E).
  by rewrite !hits_draw_order.
Qed.

Lemma count_label_disjoint model_info (data : list BoxRow) :
  count_label model_info "PFS" data + count_label model_info "VIAL" data
  <= Z.of_nat (length data).
Proof.
  unfold count_label.
  induction data as [|r data IH]; [done|].
  rewrite !filter_cons.
  repeat case_decide; simpl length; try lia. congruence.
Qed.

(** C10. On a normal return: when the detector returned at least one
    row, the count map has exactly the keys "PFS" and "VIAL", both values
    are non-negative and they add up to at most the number of rows; when
    it returned none, the map is empty. *)
Theorem predict_and_draw_count_map image model_info now img counts ts :
  predict_and_draw image model_info now = Ok (img, counts, ts) ->
  (returned_boxes image model_info <> [] ->
     dom counts = ({["PFS"; "VIAL"]} : gset string) /\
     exists a b, counts !! "PFS" = Some a /\ counts !! "VIAL" = Some b /\
                 0 <= a /\ 0 <= b /\
                 a + b <= Z.of_nat (length (returned_boxes image model_info)))
  /\
  (returned_boxes image model_info = [] ->
     counts = ∅ /\ counts !! "PFS" = None /\ counts !! "VIAL" = None).
Proof.
  intros H. split.
  - intros Hne.
    rewrite (predict_and_draw_counts_exact _ _ _ _ _ _ H Hne).
    split; [apply two_counts_dom|].
    eexists _, _.
    split; [apply two_counts_lookup_PFS|].
    split; [apply two_counts_lookup_VIAL|].
    split; [unfold count_label; lia|].
    split; [unfold count_label; lia|].
    apply count_label_disjoint.
  - intros He. rewrite predict_and_draw_no_boxes in H by done.
    injection H as _ <- _. done.
Qed.
End counts_facts.

Section predict_and_draw_claims.
Import Img Det Spec.
Local Open Scope list_scope.

Lemma predict_and_draw_count_map_witness :
  dom (two_counts 0 1) = ({["PFS"; "VIAL"]} : gset string) /\
  exists a b, two_counts 0 1 !! "PFS" = Some a /\
              two_counts 0 1 !! "VIAL" = Some b /\
              0 <= a /\ 0 <= b /\ a + b <= 2.
Proof.
  refine (proj1 (predict_and_draw_count_map Sample.red_pixel_image
            (Sample.vials_config (Sample.finds Sample.vial_then_unmapped))
            "2024-05-01 10:00:00"
            (mkDrawn Sample.red_pixel_image
               [Rectangle (1, 2) (3, 4) "white"; Ellipse (1, 2, 6, 7) "black";
                Rectangle (5, 5) (10, 10) "white";
                Ellipse (5, 5, 10, 10) "black"])
            (two_counts 0 1) "2024-05-01 10:00:00" _) _).
  - vm_compute. reflexivity.
  - vm_compute. discriminate.
Defined.

(** With no detection the returned picture is the converted array, labelled
    as RGB: each pixel of the input with its first and third channel
    exchanged. *)
Lemma predict_and_draw_no_boxes_pixels image model_info now x y :
  returned_boxes image model_info = [] ->
  exists img, predict_and_draw image model_info now = Ok (img, ∅, now) /\
              strokes img = [] /\
              getpixel (canvas img) x y = swap_channels <$> getpixel image x y.
Proof.
  intros H. eexists. split; [by apply predict_and_draw_no_boxes|].
  split; [done|]. apply getpixel_cvtColor.
Qed.

(** C3, at the failing input. For a one-pixel red image on which the
    detector finds nothing, [predict_and_draw] returns normally, with an
    empty count map and the current time, but the picture it returns is
    blue: the early return hands back the BGR array without converting it
    back, so the pixel content differs from the input. *)
Theorem predict_and_draw_no_detection_swaps_channels :
  returned_boxes Sample.red_pixel_image
    (Sample.vials_config Sample.finds_nothing) = [] /\
  predict_and_draw Sample.red_pixel_image
    (Sample.vials_config Sample.finds_nothing) "2024-05-01 10:00:00"
  = Ok (mkDrawn (mkImage 1 1 [[(0, 0, 255)]]) [], ∅, "2024-05-01 10:00:00") /\
  getpixel Sample.red_pixel_image 0 0 = Some (255, 0, 0) /\
  mkImage 1 1 [[(0, 0, 255)]] <> Sample.red_pixel_image.
Proof.
  split; [reflexivity|]. split; [reflexivity|]. split; [reflexivity|].
  discriminate.
Qed.

(** When the first detection in draw order has a label other than "PFS"
    and "VIAL", no colour has been assigned when the rectangle is drawn. *)
Lemma predict_and_draw_unbound_colour image model_info now item items :
  draw_order (returned_boxes image model_info) = item :: items ->
  class_name_of model_info item.1 <> "PFS" ->
  class_name_of model_info item.1 <> "VIAL" ->
  predict_and_draw image model_info now
  = Raise (UnboundLocalError "bbox_color").
Proof.
  intros Hd HP HV.
  rewrite predict_and_draw_boxes.
  - rewrite Hd. simpl. destruct item as [lbl crd].
    unfold loop_body. unfold class_name_of in HP, HV; simpl in HP, HV.
    rewrite decide_False by done. rewrite decide_False by done. done.
  - intros E. by rewrite E in Hd.
Qed.

(** C6, at the failing input. The detector returns a single detection
    whose class id, 1, is not in the label table {0: "VIAL"}: the call
    does not return, it raises [UnboundLocalError] for [bbox_color]. *)
Theorem predict_and_draw_unmapped_raises :
  classes (Sample.vials_config (Sample.finds [Sample.unmapped_box]))
    !! py_int (label Sample.unmapped_box) = None /\
  predict_and_draw Sample.red_pixel_image
    (Sample.vials_config (Sample.finds [Sample.unmapped_box]))
    "2024-05-01 10:00:00"
  = Raise (UnboundLocalError "bbox_color").
Proof. split; reflexivity. Qed.

(** An unmapped detection that follows a mapped one is drawn in the
    colours left over from it and is not counted. *)
Example predict_and_draw_unmapped_second :
  predict_and_draw Sample.red_pixel_image
    (Sample.vials_config (Sample.finds Sample.vial_then_unmapped))
    "2024-05-01 10:00:00"
  = Ok (mkDrawn Sample.red_pixel_image
          [Rectangle (1, 2) (3, 4) "white"; Ellipse (1, 2, 6, 7) "black";
           Rectangle (5, 5) (10, 10) "white"; Ellipse (5, 5, 10, 10) "black"],
        two_counts 0 1, "2024-05-01 10:00:00").
Proof. vm_compute. reflexivity. Qed.
End predict_and_draw_claims.

(** ** The processing loop of [user_detection_page] *)

Section page_facts.
Import Img Det Spec Page.
Local Open Scope list_scope.
Variable clock : nat -> string.
Variable accepts : ResultRow -> bool.

Lemma dict_get_nonneg image model_info now img counts ts name :
  predict_and_draw image model_info now = Ok (img, counts, ts) ->
  0 <= dict_get counts name 0.
Proof.
  intros H. unfold dict_get.
  destruct (decide (returned_boxes image model_info = [])) as [E|E].
  - rewrite predict_and_draw_no_boxes in H by done.
    injection H as _ <- _. by rewrite lookup_empty.
  - rewrite (predict_and_draw_counts_exact _ _ _ _ _ _ H E).
    unfold two_counts, count_label.
    destruct (decide (name = "PFS")) as [->|]; [simplify_map_eq; lia|].
    destruct (decide (name = "VIAL")) as [->|]; simplify_map_eq; [lia|done].
Qed.

Lemma predict_and_draw_timestamp image model_info now img counts ts :
  predict_and_draw image model_info now = Ok (img, counts, ts) -> ts = now.
Proof.
  unfold predict_and_draw.
  destruct (model model_info _ _ _) as [|data ?]; [congruence|].
  destruct (decide _); [congruence|].
  destruct (for_each _ _ _); simpl; congruence.
Qed.

(** The loop body, once both detectors have answered. *)
Lemma process_image_Ok username image image_name w mv mp iv cv tv ip cp tp :
  g_models w !! "Vials" = Some mv -> g_models w !! "PFS" = Some mp ->
  predict_and_draw image mv (clock (clock_reads w)) = Ok (iv, cv, tv) ->
  predict_and_draw image mp (clock (S (clock_reads w))) = Ok (ip, cp, tp) ->
  process_image clock username image image_name w
  = (Ok (if decide (dict_get cv "VIAL" 0 >= dict_get cp "PFS" 0)
         then iv else ip,
         {| Image_Name := image_name;
            Model_Used := if decide (dict_get cv "VIAL" 0
                                     >= dict_get cp "PFS" 0)
                          then "Vials" else "PFS";
            PFS_Count := if decide (dict_get cv "VIAL" 0
                                    >= dict_get cp "PFS" 0)
                         then 0 else dict_get cp "PFS" 0;
            VIAL_Count := if decide (dict_get cv "VIAL" 0
                                     >= dict_get cp "PFS" 0)
                          then dict_get cv "VIAL" 0 else 0;
            Timestamp := tv;
            Username := username |}),
     {| g_models := g_models w; session_state := session_state w;
        clock_reads := S (S (clock_reads w));
        detection := detection w; sql_log := sql_log w |}).
Proof.
  intros Hv Hp H1 H2.
  unfold process_image, mbind, M_bind, models_getitem, call_predict_and_draw.
  rewrite Hv, H1. cbn [g_models]. rewrite Hp.
  cbn [g_models session_state clock_reads detection sql_log]. rewrite H2.
  destruct (decide (dict_get cv "VIAL" 0 >= dict_get cp "PFS" 0)); done.
Qed.

Lemma frame_ret {A} (a : A) : frame (mret a : M A).
Proof. by intros w. Qed.

Lemma frame_bind {A B} (m : M A) (k : A -> M B) :
  frame m -> (forall a, frame (k a)) -> frame (m ≫= k).
Proof.
  intros Hm Hk w. unfold mbind, M_bind.
  specialize (Hm w). destruct (m w) as [[a|e] w1]; simpl in *; [|done].
  destruct (Hk a w1) as (-> & -> & ->). done.
Qed.

Lemma frame_models_getitem key : frame (models_getitem key).
Proof. intros w. unfold models_getitem. by destruct (g_models w !! key). Qed.

Lemma frame_call_predict_and_draw image model_info :
  frame (call_predict_and_draw clock image model_info).
Proof.
  intros w. unfold call_predict_and_draw.
  by destruct (predict_and_draw _ _ _).
Qed.

Lemma frame_process_image username image image_name :
  frame (process_image clock username image image_name).
Proof.
  unfold process_image.
  apply frame_bind; [apply frame_models_getitem|]. intros mv.
  apply frame_bind; [apply frame_call_predict_and_draw|].
  intros [[iv cv] tv].
  apply frame_bind; [apply frame_models_getitem|]. intros mp.
  apply frame_bind; [apply frame_call_predict_and_draw|].
  intros [[ip cp] tp].
  destruct (decide _); apply frame_ret.
Qed.

Lemma frame_for_images username batch results_list :
  frame (for_images clock username batch results_list).
Proof.
  revert results_list.
  induction batch as [|[image image_name] batch IH]; intros rs; simpl.
  - apply frame_ret.
  - apply frame_bind; [apply frame_process_image|]. intros [? row]. apply IH.
Qed.

(** One row per image, in processing order, under the image's name. *)
Lemma for_images_rows username batch results_list w rs w' :
  for_images clock username batch results_list w = (Ok rs, w') ->
  Image_Name <$> rs = (Image_Name <$> results_list) ++ batch.*2.
Proof.
  revert results_list w.
  induction batch as [|[image image_name] batch IH]; intros rl w; simpl.
  - intros [= <- _]. by rewrite app_nil_r.
  - unfold mbind, M_bind.
    destruct (process_image _ _ _ _ w) as [[[fin row]|e] w1] eqn:E; [|done].
    intros H. rewrite (IH _ _ H), fmap_app, <-app_assoc. simpl.
    do 2 f_equal.
    revert E. unfold process_image, mbind, M_bind.
    destruct (models_getitem "Vials" w) as [[mv|] ?]; [|done].
    destruct (call_predict_and_draw _ _ _ _) as [[[[iv cv] tv]|] ?]; [|done].
    destruct (models_getitem "PFS" _) as [[mp|] ?]; [|done].
    destruct (call_predict_and_draw _ _ _ _) as [[[[ip cp] tp]|] ?]; [|done].
    destruct (decide _); by intros [= _ <- _].
Qed.
End page_facts.

Section page_claims.
Import Img Det Spec Page.
Local Open Scope list_scope.
Variable clock : nat -> string.
Variable accepts : ResultRow -> bool.

(** C1. With [v] the "VIAL" count of the Vials outcome and [p] the "PFS"
    count of the PFS outcome (both non-negative, a missing key counting as
    zero): when [v >= p] the row says "Vials", carries [v] as its vial
    count and 0 as its PFS count, and the Vials picture is kept; when
    [p > v] the row says "PFS", carries [p] as its PFS count and 0 as its
    vial count, and the PFS picture is kept. *)
Theorem arbitration_rule username image image_name w mv mp iv cv tv ip cp tp :
  g_models w !! "Vials" = Some mv -> g_models w !! "PFS" = Some mp ->
  predict_and_draw image mv (clock (clock_reads w)) = Ok (iv, cv, tv) ->
  predict_and_draw image mp (clock (S (clock_reads w))) = Ok (ip, cp, tp) ->
  0 <= dict_get cv "VIAL" 0 /\ 0 <= dict_get cp "PFS" 0 /\
  exists final row w',
    process_image clock username image image_name w = (Ok (final, row), w') /\
    (dict_get cv "VIAL" 0 >= dict_get cp "PFS" 0 ->
       Model_Used row = "Vials" /\ VIAL_Count row = dict_get cv "VIAL" 0 /\
       PFS_Count row = 0 /\ final = iv) /\
    (dict_get cp "PFS" 0 > dict_get cv "VIAL" 0 ->
       Model_Used row = "PFS" /\ PFS_Count row = dict_get cp "PFS" 0 /\
       VIAL_Count row = 0 /\ final = ip).
Proof.
  intros Hv Hp H1 H2.
  split; [by eapply dict_get_nonneg|]. split; [by eapply dict_get_nonneg|].
  eexists _, _, _. split; [by eapply process_image_Ok|].
  cbn [Model_Used VIAL_Count PFS_Count].
  split; intros Hc.
  - by rewrite !decide_True by done.
  - by rewrite !decide_False by lia.
Qed.

(** C4. The row's timestamp is the one returned by the Vials call of
    [predict_and_draw], whichever detector wins; the timestamp of the PFS
    call, read from the clock one reading later, does not enter the row. *)
Theorem result_timestamp_is_vials username image image_name w
    mv mp iv cv tv ip cp tp :
  g_models w !! "Vials" = Some mv -> g_models w !! "PFS" = Some mp ->
  predict_and_draw image mv (clock (clock_reads w)) = Ok (iv, cv, tv) ->
  predict_and_draw image mp (clock (S (clock_reads w))) = Ok (ip, cp, tp) ->
  exists final row w',
    process_image clock username image image_name w = (Ok (final, row), w') /\
    Timestamp row = tv /\
    tv = clock (clock_reads w) /\ tp = clock (S (clock_reads w)) /\
    (tp <> tv -> Timestamp row <> tp).
Proof.
  intros Hv Hp H1 H2.
  eexists _, _, _. split; [by eapply process_image_Ok|].
  cbn [Timestamp]. split; [done|].
  split; [by eapply predict_and_draw_timestamp|].
  split; [by eapply predict_and_draw_timestamp|]. congruence.
Qed.

Lemma user_detection_page_models batch w :
  g_models (user_detection_page clock accepts batch w).2 = g_models w.
Proof.
  unfold user_detection_page.
  destruct (session_state w !! "username") as [username|]; [|done].
  unfold mbind, M_bind.
  destruct (frame_for_images clock username batch [] w) as (Hm & _ & _).
  destruct (for_images clock username batch [] w) as [[rs|e] w1];
    simpl in *; [|done].
  destruct rs as [|row rs]; [done|].
  unfold to_sql. by destruct (forallb accepts (row :: rs)).
Qed.

(** C2, as the code has it. The rows of a batch are appended after the
    loop by one [to_sql] call that carries all of them, one per image in
    processing order, and by none when the batch is empty; the call
    either appends every row or, when the sink refuses one, appends none
    and raises; and when processing an image raises, no call is made and
    the table is as before. *)
Theorem persistence_is_one_batch_insert batch w username :
  session_state w !! "username" = Some username ->
  match for_images clock username batch [] w with
  | (Ok rs, _) =>
      Image_Name <$> rs = batch.*2 /\
      sql_log (user_detection_page clock accepts batch w).2
      = sql_log w ++ match rs with [] => [] | _ :: _ => [rs] end /\
      if forallb accepts rs
      then (user_detection_page clock accepts batch w).1 = Ok tt /\
           detection (user_detection_page clock accepts batch w).2
           = detection w ++ rs
      else (user_detection_page clock accepts batch w).1
           = Raise PersistenceError /\
           detection (user_detection_page clock accepts batch w).2
           = detection w
  | (Raise e, _) =>
      (user_detection_page clock accepts batch w).1 = Raise e /\
      sql_log (user_detection_page clock accepts batch w).2 = sql_log w /\
      detection (user_detection_page clock accepts batch w).2 = detection w
  end.
Proof.
  intros Hu. unfold user_detection_page. rewrite Hu.
  unfold mbind, M_bind.
  destruct (frame_for_images clock username batch [] w) as (_ & Hd & Hl).
  destruct (for_images clock username batch [] w) as [[rs|e] w1] eqn:E;
    simpl in Hd, Hl; [|done].
  split; [by rewrite (for_images_rows _ _ _ _ _ _ _ E)|].
  destruct rs as [|row rs].
  - simpl. by rewrite Hd, Hl, !app_nil_r.
  - unfold to_sql. rewrite Hd, Hl.
    by destruct (forallb accepts (row :: rs)).
Qed.

(** C8. [models] holds exactly two configurations, under "Vials" and
    "PFS": confidence 0.65 and overlap 0.45 for the vial detector,
    confidence 0.70 and overlap 0.45 for the syringe detector, each with
    its own label table; and a run of the page leaves the table as it
    found it. *)
Theorem models_configuration yolo_vials yolo_pfs batch w :
  dom (models yolo_vials yolo_pfs) = ({["Vials"; "PFS"]} : gset string) /\
  size (models yolo_vials yolo_pfs) = 2%nat /\
  models yolo_vials yolo_pfs !! "Vials"
  = Some {| model := yolo_vials; conf_threshold := 0.65;
            iou_threshold := 0.45; classes := {[ 0 := "VIAL" ]} |} /\
  models yolo_vials yolo_pfs !! "PFS"
  = Some {| model := yolo_pfs; conf_threshold := 0.70;
            iou_threshold := 0.45; classes := {[ 0 := "PFS" ]} |} /\
  g_models (user_detection_page clock accepts batch w).2 = g_models w.
Proof.
  unfold models.
  split; [rewrite !dom_insert_L; set_solver|].
  split.
  { rewrite map_size_insert_None by by simplify_map_eq.
    by rewrite map_size_insert_None, map_size_empty by done. }
  split; [by simplify_map_eq|]. split; [by simplify_map_eq|].
  apply user_detection_page_models.
Qed.
End page_claims.

Section page_witnesses.
Import Img Det Spec Page.
Local Open Scope list_scope.

Lemma arbitration_rule_witness :
  exists final row w',
    process_image Sample.clock "alice" Sample.red_pixel_image "a.jpg"
      (Sample.world Sample.one_vial Sample.two_syringes)
    = (Ok (final, row), w') /\
    Model_Used row = "PFS" /\ PFS_Count row = 2 /\ VIAL_Count row = 0.
Proof.
  edestruct (arbitration_rule Sample.clock "alice" Sample.red_pixel_image
               "a.jpg" (Sample.world Sample.one_vial Sample.two_syringes))
    as (_ & _ & final & row & w' & H & _ & HP);
    [vm_compute; reflexivity..|].
  exists final, row, w'. split; [exact H|].
  destruct HP as (Hm & Hp & Hv & _); [vm_compute; reflexivity|].
  split; [exact Hm|]. split; [exact Hp|exact Hv].
Defined.

Lemma result_timestamp_is_vials_witness :
  exists final row w',
    process_image Sample.clock "alice" Sample.red_pixel_image "a.jpg"
      (Sample.world Sample.one_vial Sample.two_syringes)
    = (Ok (final, row), w') /\
    Model_Used row = "PFS" /\
    Timestamp row = "2024-05-01 10:00:00" /\
    Timestamp row <> "2024-05-01 10:00:01".
Proof.
  edestruct (result_timestamp_is_vials Sample.clock "alice"
               Sample.red_pixel_image "a.jpg"
               (Sample.world Sample.one_vial Sample.two_syringes))
    as (final & row & w' & H & Ht & _ & _ & Hn);
    [vm_compute; reflexivity..|].
  exists final, row, w'. split; [exact H|].
  split.
  { revert H. vm_compute. intros [= _ <- _]. reflexivity. }
  split; [exact Ht|]. apply Hn. vm_compute. discriminate.
Defined.

Lemma persistence_is_one_batch_insert_witness :
  (user_detection_page Sample.clock (fun _ => true) Sample.three_uploads
     (Sample.world Sample.one_vial Sample.two_syringes)).1 = Ok tt /\
  length (sql_log
            (user_detection_page Sample.clock (fun _ => true)
               Sample.three_uploads
               (Sample.world Sample.one_vial Sample.two_syringes)).2) = 1%nat /\
  Image_Name <$>
    detection (user_detection_page Sample.clock (fun _ => true)
                 Sample.three_uploads
                 (Sample.world Sample.one_vial Sample.two_syringes)).2
  = ["a.jpg"; "b.jpg"; "c.jpg"].
Proof.
  pose proof (persistence_is_one_batch_insert Sample.clock (fun _ => true)
                Sample.three_uploads
                (Sample.world Sample.one_vial Sample.two_syringes)
                "alice" eq_refl) as H.
  destruct (for_images Sample.clock "alice" Sample.three_uploads []
              (Sample.world Sample.one_vial Sample.two_syringes))
    as [[rs|e] w1] eqn:E; [|by vm_compute in E].
  vm_compute in E. injection E as <- _.
  destruct H as (_ & Hl & Hr & Hd).
  split; [exact Hr|]. split; [by rewrite Hl|]. by rewrite Hd.
Defined.

(** C2, as stated, fails. Three images are processed and the sink refuses
    the row of the second one only: the page has issued a single insert
    for the three rows, the run ends in an error, and the table holds
    neither the first nor the third row. *)
Lemma refused_row_loses_whole_batch :
  (Sample.refuses_b <$>
     [mkResultRow "a.jpg" "PFS" 2 0 "2024-05-01 10:00:00" "alice";
      mkResultRow "b.jpg" "PFS" 2 0 "2024-05-01 10:00:02" "alice";
      mkResultRow "c.jpg" "PFS" 2 0 "2024-05-01 10:00:04" "alice"])
  = [true; false; true] /\
  (user_detection_page Sample.clock Sample.refuses_b Sample.three_uploads
     (Sample.world Sample.one_vial Sample.two_syringes)).1
  = Raise PersistenceError /\
  sql_log (user_detection_page Sample.clock Sample.refuses_b
             Sample.three_uploads
             (Sample.world Sample.one_vial Sample.two_syringes)).2
  = [[mkResultRow "a.jpg" "PFS" 2 0 "2024-05-01 10:00:00" "alice";
      mkResultRow "b.jpg" "PFS" 2 0 "2024-05-01 10:00:02" "alice";
      mkResultRow "c.jpg" "PFS" 2 0 "2024-05-01 10:00:04" "alice"]] /\
  detection (user_detection_page Sample.clock Sample.refuses_b
               Sample.three_uploads
               (Sample.world Sample.one_vial Sample.two_syringes)).2 = [].
Proof. repeat split; vm_compute; reflexivity. Qed.
End page_witnesses.

(** ** [insert_data] *)

Section insert_data_facts.
Import Db.
Local Open Scope nat_scope.

Lemma substring_prefix (n : nat) (s : string) :
  exists rest, s = String.append (String.substring 0 n s) rest.
Proof.
  revert s. induction n as [|n IH]; intros [|c s]; simpl.
  - by exists "".
  - by exists (String c s).
  - by exists "".
  - destruct (IH s) as [rest Hr]. exists rest.
    change (String c s
            = String c (String.append (String.substring 0 n s) rest)).
    by rewrite <-Hr.
Qed.

Lemma substring_length (n : nat) (s : string) :
  String.length (String.substring 0 n s) = Nat.min n (String.length s).
Proof.
  revert s. induction n as [|n IH]; intros [|c s]; simpl; try done.
  by rewrite IH.
Qed.

Lemma substring_short (n : nat) (s : string) :
  String.length s <= n -> String.substring 0 n s = s.
Proof.
  revert s. induction n as [|n IH]; intros [|c s]; simpl; try done.
  - lia.
  - intros H. rewrite IH; [done|lia].
Qed.

(** C9. [insert_data] commits one new row after those already in the
    session. Its image name is the given name cut to its first 30
    characters: a prefix of the given name of length [min 30 (length
    name)], and the name itself when that has at most 30 characters. Its
    model name, PFS count, vial count and timestamp are the arguments. *)
Theorem insert_data_row db name model pfs vial ts :
  exists stored,
    detection_data2 (insert_data db name model pfs vial ts)
    = (detection_data2 db ++ pending db ++
       [{| image_name := stored; model_name := model; pfs_count := pfs;
           vial_count := vial; timestamp := ts |}])%list /\
    pending (insert_data db name model pfs vial ts) = [] /\
    (exists rest, name = String.append stored rest) /\
    String.length stored = Nat.min 30 (String.length name) /\
    (String.length name <= 30 -> stored = name).
Proof.
  exists (String.substring 0 30 name).
  split; [done|]. split; [done|].
  split; [apply substring_prefix|].
  split; [apply substring_length|]. apply substring_short.
Qed.

Lemma insert_data_row_witness :
  exists stored,
    detection_data2
      (insert_data (mkSession [] []) "vial_tray.jpg" "Vials" 0 3
         "2024-05-01 10:00:00")
    = [{| image_name := stored; model_name := "Vials"; pfs_count := 0%Z;
          vial_count := 3%Z; timestamp := "2024-05-01 10:00:00" |}] /\
    stored = "vial_tray.jpg".
Proof.
  destruct (insert_data_row (mkSession [] []) "vial_tray.jpg" "Vials" 0 3
              "2024-05-01 10:00:00") as (stored & Hd & _ & _ & _ & Hs).
  exists stored. split; [exact Hd|]. apply Hs. simpl. lia.
Defined.

Example insert_data_truncates :
  image_name <$>
    detection_data2
      (insert_data (mkSession [] [])
         "0123456789012345678901234567890123.jpg" "PFS" 2 0
         "2024-05-01 10:00:00")
  = ["012345678901234567890123456789"].
Proof. reflexivity. Qed.
End insert_data_facts.
